(** * Bayesian Personalized Ranking recommender: scoring and ranking

    A shallow embedding of [cornac/models/bpr/recom_bpr.py] (class [BPR]) and
    the properties of its constructor, [fit], [score] and [rank].

    Conventions of the embedding:
    - Python integers are [Z]; counts that come from [len] are [nat].
    - Factor entries and scores are taken in [Z]: the properties below depend
      on the ring operations and on the order of scores only, rounding of
      floating point numbers is not modelled.
    - A method is a function from the object [self] to a result and the
      object after the call; a raised exception is the result [Err e]. *)

From Stdlib Require Import String ZArith QArith List Bool Lia Permutation Sorted.
Import ListNotations.
Local Close Scope Q_scope.
Local Open Scope Z_scope.

(** ** Exceptions and results *)

(** The Python exceptions the modelled code can raise.  [ScoreException]
    carries the two indices its message is formatted from.  The last two
    constructors are the error names of the specification; no path of the
    source raises them. *)
Inductive exn : Type :=
| ScoreException (user_id item_id : Z)
| AttributeError
| TypeError
| IndexError
| ValueError
| KeyError
| NotFittedError
| ConfigurationError.

Inductive result (A : Type) : Type :=
| Err (e : exn)
| Ok (a : A).
Arguments Err {A} e.
Arguments Ok {A} a.

(** ** numpy arrays *)

(** A two-dimensional array of shape [(length rows, ncols)]. *)
Record ndarray2 : Type := mk_ndarray2 {
  ncols : nat;
  rows : list (list Z)
}.

(** The shape a well-formed array has. *)
Definition has_shape (M : ndarray2) (r c : nat) : Prop :=
  length (rows M) = r /\ ncols M = c /\ Forall (fun row => length row = c) (rows M).

(** [M[i, :]]: a negative index counts from the end, an index outside
    [-n, n) raises [IndexError]. *)
Definition getrow (M : ndarray2) (i : Z) : result (list Z) :=
  let n := Z.of_nat (length (rows M)) in
  if (0 <=? i) && (i <? n) then Ok (nth (Z.to_nat i) (rows M) [])
  else if (- n <=? i) && (i <? 0) then Ok (nth (Z.to_nat (i + n)) (rows M) [])
  else Err IndexError.

(** Sum of the products of the paired entries. *)
Fixpoint vdot (a b : list Z) : Z :=
  match a, b with
  | x :: a', y :: b' => x * y + vdot a' b'
  | _, _ => 0
  end.

(** [a.dot(b)] on one-dimensional arrays: the lengths must agree. *)
Definition dot (a b : list Z) : result Z :=
  if (length a =? length b)%nat then Ok (vdot a b) else Err ValueError.

(** [M.dot(v)], matrix times vector: the number of columns of [M] must be
    the length of [v]. *)
Definition matvec (M : ndarray2) (v : list Z) : result (list Z) :=
  if (ncols M =? length v)%nat then Ok (map (fun r => vdot r v) (rows M))
  else Err ValueError.

(** [np.arange(n)] *)
Definition arange (n : nat) : list Z := map Z.of_nat (seq 0 n).

(** [x[j]] for an index [j] produced by [arange]. *)
Definition item (x : list Z) (j : Z) : Z := nth (Z.to_nat j) x 0.

(** Insertion of an index in a list of indices sorted by [key]; the new
    index goes before the first index whose key is not smaller. *)
Fixpoint insert_by (key : Z -> Z) (i : Z) (l : list Z) : list Z :=
  match l with
  | [] => [i]
  | j :: l' => if key i <=? key j then i :: l else j :: insert_by key i l'
  end.

Fixpoint isort_by (key : Z -> Z) (l : list Z) : list Z :=
  match l with
  | [] => []
  | i :: l' => insert_by key i (isort_by key l')
  end.

(** [x.argsort()]: the indices of [x] in ascending order of value.  numpy
    fixes the order of the values only; equal values are left where the sort
    kind puts them.  The model takes the stable order (equal values keep
    their index order), which is what the default kind computes by insertion
    sort on arrays of fewer than 16 entries. *)
Definition argsort (x : list Z) : list Z := isort_by (item x) (arange (length x)).

(** [np.in1d(a, b)]: for each entry of [a], whether it occurs in [b]. *)
Definition in1d (a b : list Z) : list bool :=
  map (fun x => existsb (Z.eqb x) b) a.

(** [a[mask]] for a boolean mask of the length of [a]. *)
Fixpoint mask_select (a : list Z) (mask : list bool) : list Z :=
  match a, mask with
  | x :: a', b :: mask' => if b then x :: mask_select a' mask' else mask_select a' mask'
  | _, _ => []
  end.

(** [np.ones(n) * c] *)
Definition ones_times (n : nat) (c : Z) : list Z := repeat c n.

(** [a[:n] = b]: the first [min n (len a)] entries of [a] are replaced by
    [b], which must have that length or length one (broadcast); any other
    length raises [ValueError]. *)
Definition assign_prefix (a : list Z) (n : nat) (b : list Z) : result (list Z) :=
  let n' := Nat.min n (length a) in
  if (length b =? n')%nat then Ok (b ++ skipn n' a)
  else if (length b =? 1)%nat then Ok (repeat (hd 0 b) n' ++ skipn n' a)
  else Err ValueError.

(** Python's builtin [max] on a sequence: [ValueError] on the empty one. *)
Definition pymax (l : list Z) : result Z :=
  match l with
  | [] => Err ValueError
  | x :: l' => Ok (fold_left Z.max l' x)
  end.

(** ** The training set *)

(** Modelled from the spec: the class [TrainSet] of the data module is
    missing here; the model consumes from it the sizes of the two
    populations, the two validity queries and the interaction matrix, taken
    as (row, column, value) triples.  The queries are fields of the record,
    so every property below holds for whatever they answer. *)
Record TrainSet : Type := mk_TrainSet {
  num_users : nat;
  num_items : nat;
  is_unk_user : Z -> bool;
  is_unk_item : Z -> bool;
  matrix : list (Z * Z * Z)
}.

(** A Python dict with string keys, as used for [init_params] and for the
    result of the trainer. *)
Definition dict (A : Type) : Type := list (string * A).

(** [d[key]]: [KeyError] when the key is absent. *)
Fixpoint dict_get {A : Type} (d : dict A) (key : string) : result A :=
  match d with
  | [] => Err KeyError
  | (k', v) :: d' => if String.eqb key k' then Ok v else dict_get d' key
  end.

(** ** The model *)

Module BPR.

(** The attributes of a [BPR] object.  [train_set] is [None] until [fit]
    has stored one; [U] and [V] are [None] for Python's [None]. *)
Record t : Type := mk {
  name : string;
  trainable : bool;
  verbose : bool;
  train_set : option TrainSet;
  k : Z;
  init_params : dict (option ndarray2);
  max_iter : Z;
  learning_rate : Q;
  lamda : Q;
  batch_size : Z;
  U : option ndarray2;
  V : option ndarray2
}.

(** Methods: state passing with exceptions. *)
Definition M (A : Type) : Type := t -> result A * t.

Definition ret {A : Type} (a : A) : M A := fun self => (Ok a, self).

Definition raise {A : Type} (e : exn) : M A := fun self => (Err e, self).

Definition bind {A B : Type} (c : M A) (f : A -> M B) : M B :=
  fun self =>
    match c self with
    | (Ok a, self') => f a self'
    | (Err e, self') => (Err e, self')
    end.

Definition lift {A : Type} (r : result A) : M A := fun self => (r, self).

(** Reading an attribute that must not be [None] for the next operation;
    [e] is the exception that operation raises on [None]. *)
Definition deref {A : Type} (attr : t -> option A) (e : exn) : M A :=
  fun self =>
    match attr self with
    | Some a => (Ok a, self)
    | None => (Err e, self)
    end.

Definition modify (f : t -> t) : M unit := fun self => (Ok tt, f self).

Definition get {A : Type} (attr : t -> A) : M A := fun self => (Ok (attr self), self).

Notation "x <- c ;; f" := (bind c (fun x => f))
  (at level 61, c at next level, right associativity).
Notation "c ;;; f" := (bind c (fun _ => f))
  (at level 61, right associativity).

Definition set_train_set (ts : TrainSet) (self : t) : t :=
  mk (name self) (trainable self) (verbose self) (Some ts) (k self)
     (init_params self) (max_iter self) (learning_rate self) (lamda self)
     (batch_size self) (U self) (V self).

Definition set_U (u : ndarray2) (self : t) : t :=
  mk (name self) (trainable self) (verbose self) (train_set self) (k self)
     (init_params self) (max_iter self) (learning_rate self) (lamda self)
     (batch_size self) (Some u) (V self).

Definition set_V (v : ndarray2) (self : t) : t :=
  mk (name self) (trainable self) (verbose self) (train_set self) (k self)
     (init_params self) (max_iter self) (learning_rate self) (lamda self)
     (batch_size self) (U self) (Some v).

(** Modelled from the spec: [Recommender.__init__] of the base class is
    missing here.  It receives the name and the two flags only; the object
    holds no training set before [fit] (reading [self.train_set] then fails
    with [AttributeError], be the attribute [None] or absent).  The
    attributes the subclass assigns afterwards start at dummy values. *)
Definition Recommender__init__ (name : string) (trainable verbose : bool) : t :=
  mk name trainable verbose None 0 [] 0 0%Q 0%Q 0 None None.

(** [BPR.__init__]: every argument is stored as given; the two factor
    matrices are read from [init_params]. *)
Definition __init__ (k max_iter : Z) (learning_rate lamda : Q) (batch_size : Z)
    (name : string) (trainable verbose : bool)
    (init_params : dict (option ndarray2)) : result t :=
  let self := Recommender__init__ name trainable verbose in
  match dict_get init_params "U" with
  | Err e => Err e
  | Ok u =>
    match dict_get init_params "V" with
    | Err e => Err e
    | Ok v =>
      Ok (mk (BPR.name self) (BPR.trainable self) (BPR.verbose self)
             (BPR.train_set self) k init_params max_iter learning_rate lamda
             batch_size u v)
    end
  end.

(** The default arguments of the constructor. *)
Definition default_init_params : dict (option ndarray2) :=
  [("U"%string, None); ("V"%string, None)].

Definition __init__default : result t :=
  __init__ 5 100 (1 # 1000) (1 # 1000) 100 "bpr" true false default_init_params.

(** Modelled from the spec: [Recommender.fit] of the base class is missing
    here.  It stores the training set on the object, where the rest of [fit]
    and the two predictors read it as [self.train_set]. *)
Definition Recommender_fit (ts : TrainSet) : M unit := modify (set_train_set ts).

(** [score(user_id, item_id)] *)
Definition score (user_id item_id : Z) : M Z :=
  ts <- deref train_set AttributeError ;;
  if is_unk_user ts user_id || is_unk_item ts item_id then
    raise (ScoreException user_id item_id)
  else
    Vm <- deref V TypeError ;;
    v_row <- lift (getrow Vm item_id) ;;
    Um <- deref U TypeError ;;
    u_row <- lift (getrow Um user_id) ;;
    user_pred <- lift (dot v_row u_row) ;;
    ret user_pred.

Section WithCollaborators.

(** The trainer [bpr] of the sibling module and [default_score] of the base
    class are outside this file; they are parameters of the model.  The
    trainer returns the dict holding the trained ['U'] and ['V']. *)
Variable bpr :
  list (Z * Z * Z) -> list (Z * Z * Z) -> Z -> Z -> Q -> Q -> Z ->
  dict (option ndarray2) -> result (dict ndarray2).
Variable default_score : t -> Z.

(** [fit(train_set)].  The two progress messages printed under [verbose]
    do not touch the object and are left out. *)
Definition fit (ts : TrainSet) : M unit :=
  Recommender_fit ts ;;;
  ts' <- deref train_set AttributeError ;;
  let X := matrix ts' in
  self <- get (fun self => self) ;;
  if trainable self then
    let cooX := X in
    let data := cooX in
    res <- lift (bpr X data (k self) (max_iter self) (lamda self)
                     (learning_rate self) (batch_size self) (init_params self)) ;;
    u <- lift (dict_get res "U") ;;
    modify (set_U u) ;;;
    v <- lift (dict_get res "V") ;;
    modify (set_V v)
  else
    ret tt.

(** [rank(user_id, candidate_item_ids=None)] *)
Definition rank (user_id : Z) (candidate_item_ids : option (list Z)) : M (list Z) :=
  ts <- deref train_set AttributeError ;;
  if is_unk_user ts user_id then
    match candidate_item_ids with
    | None => ret (arange (num_items ts))
    | Some c => ret c
    end
  else
    Vm <- deref V AttributeError ;;
    Um <- deref U TypeError ;;
    u_row <- lift (getrow Um user_id) ;;
    known_item_scores <- lift (matvec Vm u_row) ;;
    match candidate_item_ids with
    | None =>
      let ranked_item_ids := rev (argsort known_item_scores) in
      ret ranked_item_ids
    | Some c =>
      mx <- lift (pymax c) ;;
      let n := Z.to_nat (Z.max (Z.of_nat (num_items ts)) (mx + 1)) in
      self <- get (fun self => self) ;;
      let user_pref_scores := ones_times n (default_score self) in
      user_pref_scores <- lift (assign_prefix user_pref_scores (num_items ts)
                                              known_item_scores) ;;
      let ranked_item_ids := rev (argsort user_pref_scores) in
      let mask := in1d ranked_item_ids c in
      let ranked_item_ids := mask_select ranked_item_ids mask in
      ret ranked_item_ids
    end.

End WithCollaborators.

End BPR.

(** ** Properties stated about the model *)

(** The order of a ranking [r] of the entries of a score vector [x]: every
    index of [x] occurs once, an index placed before another has a score at
    least as large, and two indices of equal score are placed as [tie]
    says. *)
Definition before (tie : Z -> Z -> Prop) (x : list Z) (a b : Z) : Prop :=
  item x b < item x a \/ (item x a = item x b /\ tie a b).

Definition ranks_by_score (tie : Z -> Z -> Prop) (x r : list Z) : Prop :=
  Permutation r (arange (length x)) /\ StronglySorted (before tie x) r.

(** The order a stable ascending sort by [key] leaves increasing indices
    in. *)
Definition ascending (key : Z -> Z) (a b : Z) : Prop :=
  key a < key b \/ (key a = key b /\ a < b).

(** Non-increasing scores along a list of indices, ties left open. *)
Definition nonincreasing (x r : list Z) : Prop :=
  StronglySorted (fun a b => item x b <= item x a) r.

(** Membership of an index in a candidate list, as [np.in1d] tests it. *)
Definition is_candidate (c : list Z) (j : Z) : bool := existsb (Z.eqb j) c.

(** [V . u_row]: the scores of all items for one row of user factors. *)
Definition known_scores (Vm : ndarray2) (u_row : list Z) : list Z :=
  map (fun v_row => vdot v_row u_row) (rows Vm).

(** A model that holds a training set and two factor matrices of the shapes
    the training set asks for, with [kk] latent factors. *)
Definition fitted (self : BPR.t) (ts : TrainSet) (Um Vm : ndarray2) (kk : nat) : Prop :=
  BPR.train_set self = Some ts /\
  BPR.U self = Some Um /\ BPR.V self = Some Vm /\
  has_shape Um (num_users ts) kk /\ has_shape Vm (num_items ts) kk.

Definition known_user (ts : TrainSet) (u : Z) : Prop :=
  is_unk_user ts u = false /\ 0 <= u < Z.of_nat (num_users ts).

Definition known_item (ts : TrainSet) (i : Z) : Prop :=
  is_unk_item ts i = false /\ 0 <= i < Z.of_nat (num_items ts).

(** A method call raises [e]. *)
Definition raises {A : Type} (c : BPR.M A) (self : BPR.t) (e : exn) : Prop :=
  fst (c self) = Err e.

(** A method call returns a value (raises nothing). *)
Definition returns {A : Type} (c : BPR.M A) (self : BPR.t) : Prop :=
  exists a, fst (c self) = Ok a.


(** The hyperparameter values the specification calls invalid. *)
Definition invalid_hyperparameters (k max_iter : Z) (learning_rate lamda : Q) : Prop :=
  k <= 0 \/ max_iter <= 0 \/ (learning_rate < 0)%Q \/ (lamda < 0)%Q.

(** ** A small model to run the definitions on *)

(** Two users, three items, two latent factors.  User 0 scores the items
    [1; 1; 2], user 1 scores them [0; 0; 1]. *)
Definition outside (n : nat) (id : Z) : bool :=
  negb ((0 <=? id) && (id <? Z.of_nat n)).

Definition ts_small : TrainSet :=
  mk_TrainSet 2 3 (outside 2) (outside 3) [(0, 0, 1); (0, 1, 1); (1, 2, 1)].

Definition U_small : ndarray2 := mk_ndarray2 2 [[1; 2]; [0; 1]].

Definition V_small : ndarray2 := mk_ndarray2 2 [[1; 0]; [1; 0]; [0; 1]].

Definition bpr_small : BPR.t :=
  BPR.mk "bpr" true false (Some ts_small) 2 BPR.default_init_params 100
         (1 # 1000) (1 # 1000) 100 (Some U_small) (Some V_small).

Definition init_params_small : dict (option ndarray2) :=
  [("U"%string, Some U_small); ("V"%string, Some V_small)].

(** The same factors supplied from outside to a model that is not trained. *)
Definition pretrained_small : BPR.t :=
  BPR.mk "bpr" false false None 2 init_params_small 100
         (1 # 1000) (1 # 1000) 100 (Some U_small) (Some V_small).

Definition default_score_small : BPR.t -> Z := fun _ => 0.

(** A trainer that would overwrite both matrices. *)
Definition trainer_small :
  list (Z * Z * Z) -> list (Z * Z * Z) -> Z -> Z -> Q -> Q -> Z ->
  dict (option ndarray2) -> result (dict ndarray2) :=
  fun _ _ _ _ _ _ _ _ =>
    Ok [("U"%string, mk_ndarray2 2 [[0; 0]; [0; 0]]);
        ("V"%string, mk_ndarray2 2 [[0; 0]; [0; 0]; [0; 0]])].

Ltac by_evaluation :=
  unfold fitted, known_user, known_item, has_shape; simpl;
  repeat split; try reflexivity; try lia; repeat constructor.

(** ** Notions for the further properties *)


(** A model that is not trainable and was given no factors. *)
Definition unfactored_small : BPR.t :=
  BPR.mk "bpr" false false None 5 BPR.default_init_params 100
         (1 # 1000) (1 # 1000) 100 None None.

(** A training set with five items, and a model that holds it together
    with the small factors, which cover three items only. *)
Definition ts_large : TrainSet :=
  mk_TrainSet 2 5 (outside 2) (outside 5) [(0, 0, 1); (1, 4, 1)].

Definition bpr_mismatch : BPR.t :=
  BPR.mk "bpr" false false (Some ts_large) 2 init_params_small 100
         (1 # 1000) (1 # 1000) 100 (Some U_small) (Some V_small).

(** ** Lists of indices *)

Lemma length_arange (n : nat) : length (arange n) = n.
Proof. unfold arange. now rewrite length_map, length_seq. Qed.

Lemma in_arange (n : nat) (j : Z) : In j (arange n) <-> 0 <= j < Z.of_nat n.
Proof.
  unfold arange. rewrite in_map_iff. split.
  - intros [i [<- Hi]]. apply in_seq in Hi. lia.
  - intros Hj. exists (Z.to_nat j). split; [lia | apply in_seq; lia].
Qed.

Lemma nth_arange (n j : nat) : (j < n)%nat -> nth j (arange n) 0 = Z.of_nat j.
Proof.
  intros Hj. unfold arange.
  change 0 with (Z.of_nat 0). rewrite map_nth, seq_nth; [reflexivity | exact Hj].
Qed.

Lemma NoDup_arange (n : nat) : NoDup (arange n).
Proof.
  unfold arange. apply Finite.Injective_map_NoDup.
  - intros a b Hab. lia.
  - apply seq_NoDup.
Qed.

Lemma arange_increasing (n : nat) : StronglySorted Z.lt (arange n).
Proof.
  unfold arange. generalize 0%nat as s.
  induction n as [|n IH]; intros s; simpl; constructor.
  - apply IH.
  - apply Forall_forall. intros j Hj.
    apply in_map_iff in Hj. destruct Hj as [i [<- Hi]]. apply in_seq in Hi. lia.
Qed.

Lemma StronglySorted_snoc {A : Type} (R : A -> A -> Prop) (l : list A) (a : A) :
  StronglySorted R l -> Forall (fun b => R b a) l -> StronglySorted R (l ++ [a]).
Proof.
  induction 1 as [|b l Hl IH Hb]; intros Ha; simpl.
  - repeat constructor.
  - inversion Ha; subst. constructor.
    + now apply IH.
    + apply Forall_app. split; [exact Hb | now constructor].
Qed.

Lemma StronglySorted_rev {A : Type} (R : A -> A -> Prop) (l : list A) :
  StronglySorted R l -> StronglySorted (fun a b => R b a) (rev l).
Proof.
  induction 1 as [|a l Hl IH Ha]; simpl.
  - constructor.
  - apply StronglySorted_snoc; [exact IH |].
    apply Forall_forall. intros b Hb. apply in_rev in Hb.
    rewrite Forall_forall in Ha. now apply Ha.
Qed.

Lemma StronglySorted_filter {A : Type} (R : A -> A -> Prop) (f : A -> bool) (l : list A) :
  StronglySorted R l -> StronglySorted R (filter f l).
Proof.
  induction 1 as [|a l Hl IH Ha]; simpl.
  - constructor.
  - destruct (f a); [| exact IH]. constructor; [exact IH |].
    apply Forall_forall. intros b Hb. apply filter_In in Hb.
    rewrite Forall_forall in Ha. now apply Ha.
Qed.

Lemma StronglySorted_weaken {A : Type} (R S : A -> A -> Prop) (l : list A) :
  (forall a b, R a b -> S a b) -> StronglySorted R l -> StronglySorted S l.
Proof.
  intros HRS. induction 1 as [|a l Hl IH Ha]; constructor.
  - exact IH.
  - eapply Forall_impl; [| exact Ha]. intros b. apply HRS.
Qed.

Lemma mask_select_in1d (a c : list Z) :
  mask_select a (in1d a c) = filter (is_candidate c) a.
Proof.
  induction a as [|x a IH]; simpl; [reflexivity |].
  unfold is_candidate at 1. destruct (existsb (Z.eqb x) c); now rewrite IH.
Qed.

Lemma is_candidate_In (c : list Z) (j : Z) : is_candidate c j = true <-> In j c.
Proof.
  unfold is_candidate. rewrite existsb_exists. split.
  - intros [y [Hy Hj]]. apply Z.eqb_eq in Hj. now subst.
  - intros Hj. exists j. split; [exact Hj | apply Z.eqb_refl].
Qed.

(** ** The stable sort of indices *)

Section Sorting.

Variable key : Z -> Z.

Lemma insert_by_perm (i : Z) (l : list Z) : Permutation (insert_by key i l) (i :: l).
Proof.
  induction l as [|j l IH]; simpl; [reflexivity |].
  destruct (key i <=? key j); [reflexivity |].
  rewrite IH. apply perm_swap.
Qed.

Lemma isort_by_perm (l : list Z) : Permutation (isort_by key l) l.
Proof.
  induction l as [|i l IH]; simpl; [reflexivity |].
  rewrite insert_by_perm. now constructor.
Qed.

Lemma insert_by_sorted (i : Z) (l : list Z) :
  StronglySorted (ascending key) l -> Forall (fun j => i < j) l ->
  StronglySorted (ascending key) (insert_by key i l).
Proof.
  induction 1 as [|j l Hl IH Hj]; intros Hi; simpl.
  - repeat constructor.
  - inversion Hi as [|? ? Hij Hil]; subst.
    destruct (key i <=? key j) eqn:E.
    + apply Z.leb_le in E. constructor; [now constructor |].
      constructor.
      * unfold ascending. lia.
      * rewrite Forall_forall in Hj, Hil. apply Forall_forall. intros b Hb.
        specialize (Hj b Hb). specialize (Hil b Hb). unfold ascending in *. lia.
    + apply Z.leb_gt in E. constructor; [now apply IH |].
      eapply Permutation_Forall; [symmetry; apply insert_by_perm |].
      constructor; [unfold ascending; lia | exact Hj].
Qed.

Lemma isort_by_sorted (l : list Z) :
  StronglySorted Z.lt l -> StronglySorted (ascending key) (isort_by key l).
Proof.
  induction 1 as [|i l Hl IH Hi]; simpl; [constructor |].
  apply insert_by_sorted; [exact IH |].
  eapply Permutation_Forall; [symmetry; apply isort_by_perm | exact Hi].
Qed.

End Sorting.

Lemma argsort_perm (x : list Z) : Permutation (argsort x) (arange (length x)).
Proof. apply isort_by_perm. Qed.

Lemma argsort_sorted (x : list Z) : StronglySorted (ascending (item x)) (argsort x).
Proof. apply isort_by_sorted, arange_increasing. Qed.

(** The reversed [argsort] ranks by score, equal scores in descending index
    order. *)
Lemma rev_argsort_ranks (x : list Z) : ranks_by_score Z.gt x (rev (argsort x)).
Proof.
  split.
  - rewrite <- Permutation_rev. apply argsort_perm.
  - eapply StronglySorted_weaken; [| apply StronglySorted_rev, argsort_sorted].
    intros a b H. unfold before, ascending in *. simpl in H. lia.
Qed.

(** ** Array operations on well-shaped arrays *)

Lemma vdot_comm (a b : list Z) : vdot a b = vdot b a.
Proof.
  revert b. induction a as [|x a IH]; intros [|y b]; simpl; try reflexivity.
  rewrite IH. lia.
Qed.

Lemma getrow_in_range (M : ndarray2) (r c : nat) (i : Z) :
  has_shape M r c -> 0 <= i < Z.of_nat r ->
  getrow M i = Ok (nth (Z.to_nat i) (rows M) []) /\
  length (nth (Z.to_nat i) (rows M) []) = c.
Proof.
  intros (Hr & _ & Hrows) Hi. unfold getrow. rewrite Hr.
  replace (0 <=? i) with true by (symmetry; apply Z.leb_le; lia).
  replace (i <? Z.of_nat r) with true by (symmetry; apply Z.ltb_lt; lia).
  split; [reflexivity |].
  rewrite Forall_forall in Hrows. apply Hrows, nth_In. lia.
Qed.

Lemma matvec_shape (M : ndarray2) (r c : nat) (v : list Z) :
  has_shape M r c -> length v = c ->
  matvec M v = Ok (known_scores M v) /\ length (known_scores M v) = r.
Proof.
  intros (Hr & Hc & _) Hv. unfold matvec, known_scores.
  rewrite Hc, Hv, Nat.eqb_refl, length_map. now split.
Qed.

Lemma assign_prefix_extend (d : Z) (n N : nat) (b : list Z) :
  length b = n -> (n <= N)%nat ->
  assign_prefix (ones_times N d) n b = Ok (b ++ repeat d (N - n)).
Proof.
  intros Hb HnN. unfold assign_prefix, ones_times.
  rewrite repeat_length, Nat.min_l by exact HnN.
  rewrite Hb, Nat.eqb_refl. f_equal. f_equal.
  replace N with (n + (N - n))%nat at 1 by lia.
  rewrite repeat_app, skipn_app, repeat_length, Nat.sub_diag.
  rewrite skipn_all2 by (rewrite repeat_length; lia). reflexivity.
Qed.

Lemma fold_left_max_ge (l : list Z) (x : Z) :
  x <= fold_left Z.max l x /\ Forall (fun c => c <= fold_left Z.max l x) l.
Proof.
  revert x. induction l as [|y l IH]; intros x; simpl.
  - split; [lia | constructor].
  - destruct (IH (Z.max x y)) as [H1 H2]. split; [lia |].
    constructor; [lia | exact H2].
Qed.

Lemma fold_left_max_in (l : list Z) (x : Z) :
  fold_left Z.max l x = x \/ In (fold_left Z.max l x) l.
Proof.
  revert x. induction l as [|y l IH]; intros x; simpl; [now left |].
  destruct (IH (Z.max x y)) as [H | H]; [| now right; right].
  rewrite H. destruct (Z.max_spec x y) as [[_ E] | [_ E]]; rewrite E; auto.
Qed.

(** [max] of a non-empty sequence is its greatest element. *)
Lemma pymax_spec (c0 : Z) (cs : list Z) :
  exists mx, pymax (c0 :: cs) = Ok mx /\ In mx (c0 :: cs) /\
             Forall (fun c => c <= mx) (c0 :: cs).
Proof.
  exists (fold_left Z.max cs c0). split; [reflexivity |].
  destruct (fold_left_max_ge cs c0) as [H1 H2].
  split; [| now constructor].
  destruct (fold_left_max_in cs c0) as [H | H]; [left; now rewrite H | now right].
Qed.

(** The extended score vector: known scores first, the default score for
    every further index. *)
Lemma item_extend_known (b : list Z) (d : Z) (e : nat) (j : Z) :
  0 <= j < Z.of_nat (length b) -> item (b ++ repeat d e) j = item b j.
Proof. intros Hj. unfold item. apply app_nth1. lia. Qed.

Lemma item_extend_default (b : list Z) (d : Z) (e : nat) (j : Z) :
  Z.of_nat (length b) <= j < Z.of_nat (length b + e) -> item (b ++ repeat d e) j = d.
Proof.
  intros Hj. unfold item. rewrite app_nth2 by lia.
  apply nth_repeat_lt. lia.
Qed.

(** ** What the two predictors compute on a fitted model *)

Section Predictors.

Variable default_score : BPR.t -> Z.
Variables (self : BPR.t) (ts : TrainSet) (Um Vm : ndarray2) (kk : nat).
Hypothesis Hfit : fitted self ts Um Vm kk.

Lemma user_row (u : Z) :
  known_user ts u ->
  exists u_row, getrow Um u = Ok u_row /\ length u_row = kk /\
    matvec Vm u_row = Ok (known_scores Vm u_row) /\
    length (known_scores Vm u_row) = num_items ts.
Proof.
  intros [_ Hu]. destruct Hfit as (_ & _ & _ & HUs & HVs).
  destruct (getrow_in_range _ _ _ _ HUs Hu) as [Hrow Hlen].
  eexists. split; [exact Hrow |]. split; [exact Hlen |].
  now apply (matvec_shape _ _ _ _ HVs).
Qed.

Lemma rank_all_eq (u : Z) (u_row : list Z) :
  known_user ts u -> getrow Um u = Ok u_row ->
  BPR.rank default_score u None self =
  (Ok (rev (argsort (known_scores Vm u_row))), self).
Proof.
  intros Hk Hrow. destruct (user_row u Hk) as (r & Hr & _ & Hmv & _).
  rewrite Hrow in Hr. injection Hr as <-.
  destruct Hk as [Hunk _]. destruct Hfit as (Hts & HU & HV & _).
  unfold BPR.rank, BPR.bind, BPR.deref, BPR.lift, BPR.ret.
  rewrite Hts, Hunk, HV, HU, Hrow, Hmv. reflexivity.
Qed.

Lemma rank_candidates_eq (u : Z) (u_row : list Z) (c0 : Z) (cs : list Z) (mx : Z) :
  known_user ts u -> getrow Um u = Ok u_row -> pymax (c0 :: cs) = Ok mx ->
  BPR.rank default_score u (Some (c0 :: cs)) self =
  (Ok (filter (is_candidate (c0 :: cs))
         (rev (argsort (known_scores Vm u_row ++
                        repeat (default_score self)
                          (Z.to_nat (Z.max (Z.of_nat (num_items ts)) (mx + 1))
                           - num_items ts))))),
   self).
Proof.
  intros Hk Hrow Hmx. destruct (user_row u Hk) as (r & Hr & _ & Hmv & Hlen).
  rewrite Hrow in Hr. injection Hr as <-.
  destruct Hk as [Hunk _]. destruct Hfit as (Hts & HU & HV & _).
  unfold BPR.rank, BPR.bind, BPR.deref, BPR.lift, BPR.ret, BPR.get.
  rewrite Hts, Hunk, HV, HU, Hrow, Hmv, Hmx.
  rewrite (assign_prefix_extend _ (num_items ts)) by (exact Hlen || lia).
  now rewrite mask_select_in1d.
Qed.

Lemma rank_no_candidates_raises (u : Z) :
  known_user ts u ->
  BPR.rank default_score u (Some []) self = (Err ValueError, self).
Proof.
  intros Hk. destruct (user_row u Hk) as (r & Hr & _ & Hmv & _).
  destruct Hk as [Hunk _]. destruct Hfit as (Hts & HU & HV & _).
  unfold BPR.rank, BPR.bind, BPR.deref, BPR.lift, BPR.ret.
  rewrite Hts, Hunk, HV, HU, Hr, Hmv. reflexivity.
Qed.

End Predictors.

(** ** Ranking *)

(** C6: for an unknown user, [rank] returns the supplied candidates as they
    are, in their input order, and without candidates all item indices in
    the natural order [0, 1, ..., num_items - 1]; neither call raises, and
    the object is unchanged. *)
Theorem rank_unknown_user (default_score : BPR.t -> Z) (self : BPR.t)
    (ts : TrainSet) (u : Z) (c : list Z) :
  BPR.train_set self = Some ts -> is_unk_user ts u = true ->
  BPR.rank default_score u (Some c) self = (Ok c, self) /\
  BPR.rank default_score u None self = (Ok (arange (num_items ts)), self) /\
  length (arange (num_items ts)) = num_items ts /\
  (forall j, (j < num_items ts)%nat -> nth j (arange (num_items ts)) 0 = Z.of_nat j).
Proof.
  intros Hts Hunk.
  unfold BPR.rank, BPR.bind, BPR.deref, BPR.ret. rewrite Hts, Hunk.
  repeat split.
  - apply length_arange.
  - apply nth_arange.
Qed.


(** X1: for a known user and a non-empty candidate list inside the trained
    item population, the restricted ranking is the unrestricted one filtered
    to the candidates, in the same relative order. *)
Lemma rank_subset_nonempty (default_score : BPR.t -> Z) (self : BPR.t)
    (ts : TrainSet) (Um Vm : ndarray2) (kk : nat) (u : Z) (c0 : Z) (cs : list Z) :
  fitted self ts Um Vm kk -> known_user ts u ->
  Forall (fun c => 0 <= c < Z.of_nat (num_items ts)) (c0 :: cs) ->
  exists r,
    BPR.rank default_score u None self = (Ok r, self) /\
    BPR.rank default_score u (Some (c0 :: cs)) self =
      (Ok (filter (is_candidate (c0 :: cs)) r), self).
Proof.
  intros Hfit Hk Hc.
  destruct (user_row self ts Um Vm kk Hfit u Hk) as (u_row & Hrow & _ & _ & Hlen).
  destruct (pymax_spec c0 cs) as (mx & Hmx & Hin & _).
  exists (rev (argsort (known_scores Vm u_row))).
  split; [now apply (rank_all_eq _ _ ts Um Vm kk) |].
  rewrite (rank_candidates_eq _ _ ts Um Vm kk Hfit u u_row c0 cs mx Hk Hrow Hmx).
  rewrite Forall_forall in Hc. specialize (Hc mx Hin).
  replace (Z.to_nat (Z.max (Z.of_nat (num_items ts)) (mx + 1)) - num_items ts)%nat
    with 0%nat by lia.
  simpl repeat. now rewrite app_nil_r.
Qed.

(** X2: for a known user and a non-empty list of pairwise distinct,
    non-negative candidates, the restricted ranking is a permutation of the
    candidates. *)
Lemma rank_nonempty_permutation (default_score : BPR.t -> Z) (self : BPR.t)
    (ts : TrainSet) (Um Vm : ndarray2) (kk : nat) (u : Z) (c0 : Z) (cs : list Z) :
  fitted self ts Um Vm kk -> known_user ts u ->
  NoDup (c0 :: cs) -> Forall (fun c => 0 <= c) (c0 :: cs) ->
  exists r,
    BPR.rank default_score u (Some (c0 :: cs)) self = (Ok r, self) /\
    Permutation r (c0 :: cs).
Proof.
  intros Hfit Hk Hnd Hpos.
  destruct (user_row self ts Um Vm kk Hfit u Hk) as (u_row & Hrow & _ & _ & Hlen).
  destruct (pymax_spec c0 cs) as (mx & Hmx & Hin & Hle).
  eexists. split.
  - apply (rank_candidates_eq _ _ ts Um Vm kk Hfit u u_row c0 cs mx Hk Hrow Hmx).
  - set (ext := known_scores Vm u_row ++ _).
    assert (Hext : length ext = Z.to_nat (Z.max (Z.of_nat (num_items ts)) (mx + 1))).
    { unfold ext. rewrite length_app, repeat_length, Hlen. lia. }
    apply NoDup_Permutation.
    + apply NoDup_filter, NoDup_rev.
      eapply Permutation_NoDup; [symmetry; apply argsort_perm | apply NoDup_arange].
    + exact Hnd.
    + intros j. rewrite filter_In, is_candidate_In, <- in_rev.
      split; [tauto |]. intros Hj. split; [| exact Hj].
      eapply Permutation_in; [symmetry; apply argsort_perm |].
      apply in_arange. rewrite Hext.
      rewrite Forall_forall in Hpos, Hle.
      specialize (Hpos j Hj). specialize (Hle j Hj). simpl in Hle. lia.
Qed.

(** C7: for a known user and candidates that reach beyond the trained item
    population, [rank] works on an extended score vector [ext] that has the
    known scores at the trained indices and the default score at every index
    from [num_items] up to the largest candidate; it sorts all indices of
    [ext] in non-increasing score order and keeps exactly the candidates, in
    that order. *)
Theorem rank_extends_with_default (default_score : BPR.t -> Z) (self : BPR.t)
    (ts : TrainSet) (Um Vm : ndarray2) (kk : nat) (u : Z) (c : list Z) (far : Z) :
  fitted self ts Um Vm kk -> known_user ts u ->
  In far c -> Z.of_nat (num_items ts) <= far ->
  exists u_row mx ext full,
    getrow Um u = Ok u_row /\
    In mx c /\ Forall (fun j => j <= mx) c /\
    length ext = Z.to_nat (mx + 1) /\
    (forall j, 0 <= j < Z.of_nat (num_items ts) ->
               item ext j = item (known_scores Vm u_row) j) /\
    (forall j, Z.of_nat (num_items ts) <= j <= mx ->
               item ext j = default_score self) /\
    Permutation full (arange (length ext)) /\
    nonincreasing ext full /\
    BPR.rank default_score u (Some c) self =
      (Ok (filter (is_candidate c) full), self) /\
    nonincreasing ext (filter (is_candidate c) full).
Proof.
  intros Hfit Hk Hfar Hbeyond.
  destruct (user_row self ts Um Vm kk Hfit u Hk) as (u_row & Hrow & _ & _ & Hlen).
  destruct c as [|c0 cs]; [contradiction |].
  destruct (pymax_spec c0 cs) as (mx & Hmx & Hin & Hle).
  assert (Hfm : far <= mx) by (rewrite Forall_forall in Hle; now apply Hle).
  pose proof (rank_candidates_eq default_score _ ts Um Vm kk Hfit u u_row c0 cs mx
                Hk Hrow Hmx) as Hrank.
  remember (Z.to_nat (Z.max (Z.of_nat (num_items ts)) (mx + 1)) - num_items ts)%nat
    as e eqn:He.
  set (ext := known_scores Vm u_row ++ repeat (default_score self) e) in *.
  assert (Hsorted : nonincreasing ext (rev (argsort ext))).
  { eapply StronglySorted_weaken; [| apply (rev_argsort_ranks ext)].
    intros a b H. unfold before in H. lia. }
  exists u_row, mx, ext, (rev (argsort ext)).
  split; [exact Hrow |]. split; [exact Hin |]. split; [exact Hle |].
  split; [unfold ext; rewrite length_app, repeat_length, Hlen; lia |].
  split; [intros j Hj; apply item_extend_known; lia |].
  split; [intros j Hj; apply item_extend_default; lia |].
  split; [apply (rev_argsort_ranks ext) |].
  split; [exact Hsorted |]. split; [exact Hrank |].
  now apply StronglySorted_filter.
Qed.



Lemma rank_unknown_user_witness :
  BPR.rank default_score_small 5 (Some [7; 3]) bpr_small = (Ok [7; 3], bpr_small) /\
  BPR.rank default_score_small 5 None bpr_small =
    (Ok (arange (num_items ts_small)), bpr_small) /\
  length (arange (num_items ts_small)) = num_items ts_small /\
  (forall j, (j < num_items ts_small)%nat ->
             nth j (arange (num_items ts_small)) 0 = Z.of_nat j).
Proof.
  apply (rank_unknown_user default_score_small bpr_small ts_small 5 [7; 3]);
    reflexivity.
Defined.

Lemma rank_extends_with_default_witness :
  exists u_row mx ext full,
    getrow U_small 0 = Ok u_row /\
    In mx [4; 0; 2] /\ Forall (fun j => j <= mx) [4; 0; 2] /\
    length ext = Z.to_nat (mx + 1) /\
    (forall j, 0 <= j < Z.of_nat (num_items ts_small) ->
               item ext j = item (known_scores V_small u_row) j) /\
    (forall j, Z.of_nat (num_items ts_small) <= j <= mx ->
               item ext j = default_score_small bpr_small) /\
    Permutation full (arange (length ext)) /\
    nonincreasing ext full /\
    BPR.rank default_score_small 0 (Some [4; 0; 2]) bpr_small =
      (Ok (filter (is_candidate [4; 0; 2]) full), bpr_small) /\
    nonincreasing ext (filter (is_candidate [4; 0; 2]) full).
Proof.
  apply (rank_extends_with_default default_score_small bpr_small ts_small
           U_small V_small 2 0 [4; 0; 2] 4); by_evaluation.
Defined.

(** C2, at the empty candidate list: the unrestricted ranking of user 0
    filtered to no candidates is the empty sequence, while [rank] with the
    empty candidate list raises [ValueError] ([max] of an empty sequence). *)
Theorem rank_empty_subset_raises :
  fitted bpr_small ts_small U_small V_small 2 /\
  known_user ts_small 0 /\
  Forall (fun c => 0 <= c < Z.of_nat (num_items ts_small)) [] /\
  BPR.rank default_score_small 0 None bpr_small = (Ok [2; 1; 0], bpr_small) /\
  filter (is_candidate []) [2; 1; 0] = [] /\
  BPR.rank default_score_small 0 (Some []) bpr_small = (Err ValueError, bpr_small).
Proof.
  split; [by_evaluation |]. split; [by_evaluation |].
  split; [constructor |]. repeat split.
Qed.

(** C10, at the empty candidate list: it has no repeated index, and [rank]
    returns no permutation of it but raises [ValueError]. *)
Theorem rank_empty_candidates_no_permutation :
  known_user ts_small 1 /\ NoDup (@nil Z) /\
  raises (BPR.rank default_score_small 1 (Some [])) bpr_small ValueError /\
  ~ (exists r, fst (BPR.rank default_score_small 1 (Some []) bpr_small) = Ok r /\
               Permutation r []).
Proof.
  split; [by_evaluation |]. split; [constructor |]. split; [reflexivity |].
  intros (r & Hr & _). vm_compute in Hr. discriminate.
Qed.

(** The rankings of the small model. *)
Example rank_small_user0 :
  BPR.rank default_score_small 0 None bpr_small = (Ok [2; 1; 0], bpr_small).
Proof. reflexivity. Qed.

Example rank_small_user0_subset :
  BPR.rank default_score_small 0 (Some [0; 2]) bpr_small = (Ok [2; 0], bpr_small).
Proof. reflexivity. Qed.

Example rank_small_user0_beyond :
  BPR.rank default_score_small 0 (Some [4; 0; 2]) bpr_small = (Ok [2; 0; 4], bpr_small).
Proof. reflexivity. Qed.

Example rank_small_cold_user :
  BPR.rank default_score_small 2 None bpr_small = (Ok [0; 1; 2], bpr_small).
Proof. reflexivity. Qed.

(** ** Scoring *)

(** C3: once a training set is held, [score] raises [ScoreException] exactly
    when the user or the item is unknown to it; for an unknown user or item
    the call raises and returns no score. *)
Theorem score_raises_iff_unknown (self : BPR.t) (ts : TrainSet) (u i : Z) :
  BPR.train_set self = Some ts ->
  ((exists a b, raises (BPR.score u i) self (ScoreException a b)) <->
   (is_unk_user ts u = true \/ is_unk_item ts i = true)) /\
  (is_unk_user ts u = true \/ is_unk_item ts i = true ->
   BPR.score u i self = (Err (ScoreException u i), self) /\
   ~ returns (BPR.score u i) self).
Proof.
  intros Hts.
  assert (Hunk : is_unk_user ts u = true \/ is_unk_item ts i = true ->
                 BPR.score u i self = (Err (ScoreException u i), self)).
  { intros H. unfold BPR.score, BPR.bind, BPR.deref, BPR.raise. rewrite Hts.
    apply orb_true_iff in H. now rewrite H. }
  split; [split |].
  - intros (a & b & H). unfold raises in H.
    destruct (is_unk_user ts u) eqn:Eu; [now left |].
    destruct (is_unk_item ts i) eqn:Ei; [now right |].
    exfalso. revert H.
    unfold BPR.score, BPR.bind, BPR.deref, BPR.raise, BPR.lift, BPR.ret.
    rewrite Hts, Eu, Ei. simpl.
    destruct (BPR.V self) as [Vm|]; [| discriminate].
    destruct (getrow Vm i) as [e|v_row] eqn:Ev.
    { unfold getrow in Ev. repeat destruct (_ && _) in Ev; try discriminate.
      injection Ev as <-. discriminate. }
    destruct (BPR.U self) as [Um|]; [| discriminate].
    destruct (getrow Um u) as [e|u_row] eqn:Eur.
    { unfold getrow in Eur. repeat destruct (_ && _) in Eur; try discriminate.
      injection Eur as <-. discriminate. }
    unfold dot. destruct (_ =? _)%nat; discriminate.
  - intros H. exists u, i. unfold raises. now rewrite (Hunk H).
  - intros H. split; [exact (Hunk H) |].
    intros [x Hx]. rewrite (Hunk H) in Hx. discriminate.
Qed.

Lemma score_raises_iff_unknown_witness :
  ((exists a b, raises (BPR.score 2 0) bpr_small (ScoreException a b)) <->
   (is_unk_user ts_small 2 = true \/ is_unk_item ts_small 0 = true)) /\
  (is_unk_user ts_small 2 = true \/ is_unk_item ts_small 0 = true ->
   BPR.score 2 0 bpr_small = (Err (ScoreException 2 0), bpr_small) /\
   ~ returns (BPR.score 2 0) bpr_small).
Proof.
  apply (score_raises_iff_unknown bpr_small ts_small 2 0). reflexivity.
Defined.

(** C8: for a known user and a known item of a fitted model, [score]
    returns the dot product of the user's row of [U] and the item's row of
    [V], and leaves the object (factor matrices and training set) as it
    was. *)
Theorem score_dot_product (self : BPR.t) (ts : TrainSet) (Um Vm : ndarray2)
    (kk : nat) (u i : Z) :
  fitted self ts Um Vm kk -> known_user ts u -> known_item ts i ->
  exists u_row v_row,
    getrow Um u = Ok u_row /\ getrow Vm i = Ok v_row /\
    BPR.score u i self = (Ok (vdot u_row v_row), self).
Proof.
  intros (Hts & HU & HV & HUs & HVs) [Hu Hur] [Hi Hir].
  destruct (getrow_in_range _ _ _ _ HUs Hur) as [Hurow Hulen].
  destruct (getrow_in_range _ _ _ _ HVs Hir) as [Hvrow Hvlen].
  eexists. eexists. split; [exact Hurow |]. split; [exact Hvrow |].
  unfold BPR.score, BPR.bind, BPR.deref, BPR.raise, BPR.lift, BPR.ret.
  rewrite Hts, Hu, Hi. simpl. rewrite HV, Hvrow, HU, Hurow.
  unfold dot. rewrite Hulen, Hvlen, Nat.eqb_refl.
  now rewrite vdot_comm.
Qed.

Lemma score_dot_product_witness :
  exists u_row v_row,
    getrow U_small 0 = Ok u_row /\ getrow V_small 2 = Ok v_row /\
    BPR.score 0 2 bpr_small = (Ok (vdot u_row v_row), bpr_small).
Proof.
  apply (score_dot_product bpr_small ts_small U_small V_small 2 0 2); by_evaluation.
Defined.

Example score_small : BPR.score 0 2 bpr_small = (Ok 2, bpr_small).
Proof. reflexivity. Qed.

(** C4, as stated, fails: the model built with the default arguments
    (trainable, no initial factors) raises [AttributeError] from [score] and
    from [rank], not [NotFittedError]. *)
Lemma score_before_fit_not_NotFittedError :
  exists self,
    BPR.__init__default = Ok self /\
    BPR.trainable self = true /\ BPR.U self = None /\ BPR.V self = None /\
    ~ raises (BPR.score 0 0) self NotFittedError /\
    ~ raises (BPR.rank default_score_small 0 None) self NotFittedError.
Proof.
  eexists. split; [reflexivity |]. repeat split; intros H; discriminate H.
Qed.

(** C4, as the code has it: on a freshly built model, whatever the
    arguments of the constructor, [score] and [rank] raise [AttributeError]
    (there is no training set to ask); no score or ranking is returned and
    the object is unchanged. *)
Theorem predict_before_fit_raises (default_score : BPR.t -> Z)
    (k max_iter : Z) (learning_rate lamda : Q) (batch_size : Z) (name : string)
    (trainable verbose : bool) (init_params : dict (option ndarray2))
    (self : BPR.t) (u i : Z) (c : option (list Z)) :
  BPR.__init__ k max_iter learning_rate lamda batch_size name trainable verbose
               init_params = Ok self ->
  BPR.score u i self = (Err AttributeError, self) /\
  BPR.rank default_score u c self = (Err AttributeError, self).
Proof.
  unfold BPR.__init__. intros H.
  destruct (dict_get init_params "U"); [discriminate |].
  destruct (dict_get init_params "V"); [discriminate |].
  injection H as <-. split; reflexivity.
Qed.

Lemma predict_before_fit_raises_witness :
  BPR.score 0 0 pretrained_small = (Err AttributeError, pretrained_small) /\
  BPR.rank default_score_small 0 (Some [1]) pretrained_small =
    (Err AttributeError, pretrained_small).
Proof.
  apply (predict_before_fit_raises default_score_small 2 100 (1 # 1000) (1 # 1000)
           100 "bpr" false false init_params_small pretrained_small 0 0 (Some [1])).
  reflexivity.
Defined.

(** ** Construction and fitting *)

(** C5, as stated, fails: each of the four invalid settings is accepted by
    the constructor. *)
Lemma init_accepts_invalid_hyperparameters :
  (invalid_hyperparameters 0 100 (1 # 1000) (1 # 1000) /\
   BPR.__init__ 0 100 (1 # 1000) (1 # 1000) 100 "bpr" true false
                BPR.default_init_params <> Err ConfigurationError) /\
  (invalid_hyperparameters 5 (-1) (1 # 1000) (1 # 1000) /\
   BPR.__init__ 5 (-1) (1 # 1000) (1 # 1000) 100 "bpr" true false
                BPR.default_init_params <> Err ConfigurationError) /\
  (invalid_hyperparameters 5 100 (-1 # 1000) (1 # 1000) /\
   BPR.__init__ 5 100 (-1 # 1000) (1 # 1000) 100 "bpr" true false
                BPR.default_init_params <> Err ConfigurationError) /\
  (invalid_hyperparameters 5 100 (1 # 1000) (-1 # 1000) /\
   BPR.__init__ 5 100 (1 # 1000) (-1 # 1000) 100 "bpr" true false
                BPR.default_init_params <> Err ConfigurationError).
Proof.
  unfold invalid_hyperparameters.
  repeat split; try discriminate.
  - left. lia.
  - right. left. lia.
  - right. right. left. reflexivity.
  - right. right. right. reflexivity.
Qed.

(** C5, as the code has it: the constructor checks no hyperparameter; for
    any values of [k], [max_iter], [learning_rate], [lamda] and
    [batch_size], and initial parameters that hold the keys ['U'] and ['V'],
    it returns an object that stores the values as given. *)
Theorem init_stores_any_hyperparameters (k max_iter : Z) (learning_rate lamda : Q)
    (batch_size : Z) (name : string) (trainable verbose : bool)
    (init_params : dict (option ndarray2)) (u0 v0 : option ndarray2) :
  dict_get init_params "U" = Ok u0 -> dict_get init_params "V" = Ok v0 ->
  BPR.__init__ k max_iter learning_rate lamda batch_size name trainable verbose
               init_params =
  Ok (BPR.mk name trainable verbose None k init_params max_iter learning_rate
             lamda batch_size u0 v0).
Proof.
  intros HU HV. unfold BPR.__init__. now rewrite HU, HV.
Qed.

Lemma init_stores_any_hyperparameters_witness :
  BPR.__init__ 0 (-1) (-1 # 1000) (-1 # 1000) 100 "bpr" true false
               BPR.default_init_params =
  Ok (BPR.mk "bpr" true false None 0 BPR.default_init_params (-1) (-1 # 1000)
             (-1 # 1000) 100 None None).
Proof.
  apply (init_stores_any_hyperparameters 0 (-1) (-1 # 1000) (-1 # 1000) 100 "bpr"
           true false BPR.default_init_params None None); reflexivity.
Defined.

(** C9: on a model that is not trainable, [fit] stores the training set and
    nothing else: it does not call the trainer, and [U] and [V] are after
    the call the matrices the model held before it. *)
Theorem fit_not_trainable_keeps_factors
    (bpr : list (Z * Z * Z) -> list (Z * Z * Z) -> Z -> Z -> Q -> Q -> Z ->
           dict (option ndarray2) -> result (dict ndarray2))
    (self : BPR.t) (ts : TrainSet) :
  BPR.trainable self = false ->
  BPR.fit bpr ts self = (Ok tt, BPR.set_train_set ts self) /\
  BPR.U (snd (BPR.fit bpr ts self)) = BPR.U self /\
  BPR.V (snd (BPR.fit bpr ts self)) = BPR.V self.
Proof.
  intros Htr.
  assert (H : BPR.fit bpr ts self = (Ok tt, BPR.set_train_set ts self)).
  { unfold BPR.fit, BPR.Recommender_fit, BPR.bind, BPR.modify, BPR.deref,
      BPR.get, BPR.ret. simpl. now rewrite Htr. }
  rewrite H. repeat split.
Qed.

Lemma fit_not_trainable_keeps_factors_witness :
  BPR.fit trainer_small ts_small pretrained_small =
    (Ok tt, BPR.set_train_set ts_small pretrained_small) /\
  BPR.U (snd (BPR.fit trainer_small ts_small pretrained_small)) =
    BPR.U pretrained_small /\
  BPR.V (snd (BPR.fit trainer_small ts_small pretrained_small)) =
    BPR.V pretrained_small.
Proof.
  apply (fit_not_trainable_keeps_factors trainer_small pretrained_small ts_small).
  reflexivity.
Defined.

(** On a trainable model the same trainer replaces both matrices. *)
Example fit_trainable_small :
  BPR.U (snd (BPR.fit trainer_small ts_small bpr_small)) =
    Some (mk_ndarray2 2 [[0; 0]; [0; 0]]).
Proof. reflexivity. Qed.

(** ** Further properties of ranking *)




Lemma pymax_greatest (c : list Z) (mx : Z) :
  pymax c = Ok mx -> In mx c /\ Forall (fun j => j <= mx) c.
Proof.
  destruct c as [|c0 cs]; [discriminate |]. intros H.
  destruct (pymax_spec c0 cs) as (mx' & Hmx' & Hin & Hle).
  rewrite H in Hmx'. injection Hmx' as <-. now split.
Qed.

Lemma is_candidate_same (c d : list Z) (j : Z) :
  (forall x, In x c <-> In x d) -> is_candidate c j = is_candidate d j.
Proof.
  intros H. apply eq_true_iff_eq. rewrite !is_candidate_In. apply H.
Qed.

Lemma item_known_scores (Vm : ndarray2) (u_row : list Z) (i : Z) :
  item (known_scores Vm u_row) i = vdot (nth (Z.to_nat i) (rows Vm) []) u_row.
Proof.
  unfold item, known_scores.
  change 0 with ((fun v_row => vdot v_row u_row) []).
  now rewrite map_nth.
Qed.

Section RankFacts.

Variable default_score : BPR.t -> Z.
Variables (self : BPR.t) (ts : TrainSet) (Um Vm : ndarray2) (kk : nat).
Hypothesis Hfit : fitted self ts Um Vm kk.

(** What the restricted ranking of a known user is made of. *)
Lemma rank_candidates_facts (u : Z) (u_row : list Z) (c : list Z) (mx : Z) :
  known_user ts u -> getrow Um u = Ok u_row -> pymax c = Ok mx ->
  exists ext r,
    BPR.rank default_score u (Some c) self = (Ok r, self) /\
    (forall j, 0 <= j < Z.of_nat (num_items ts) ->
               item ext j = item (known_scores Vm u_row) j) /\
    (forall j, Z.of_nat (num_items ts) <= j <= mx ->
               item ext j = default_score self) /\
    StronglySorted (before Z.gt ext) r /\
    NoDup r /\
    (forall j, In j r <-> In j c /\ 0 <= j).
Proof.
  intros Hk Hrow Hmx.
  destruct (user_row self ts Um Vm kk Hfit u Hk) as (r0 & Hr0 & _ & _ & Hlen).
  rewrite Hrow in Hr0. injection Hr0 as <-.
  destruct (pymax_greatest c mx Hmx) as [Hin Hle].
  destruct c as [|c0 cs]; [discriminate |].
  pose proof (rank_candidates_eq default_score _ ts Um Vm kk Hfit u u_row c0 cs mx
                Hk Hrow Hmx) as Hrank.
  remember (Z.to_nat (Z.max (Z.of_nat (num_items ts)) (mx + 1)) - num_items ts)%nat
    as e eqn:He.
  set (ext := known_scores Vm u_row ++ repeat (default_score self) e) in *.
  assert (Hext : length ext = Z.to_nat (Z.max (Z.of_nat (num_items ts)) (mx + 1))).
  { unfold ext. rewrite length_app, repeat_length, Hlen. lia. }
  destruct (rev_argsort_ranks ext) as [Hperm Hsorted].
  exists ext, (filter (is_candidate (c0 :: cs)) (rev (argsort ext))).
  split; [exact Hrank |].
  split; [intros j Hj; apply item_extend_known; lia |].
  split; [intros j Hj; apply item_extend_default; lia |].
  split; [now apply StronglySorted_filter |].
  split.
  - apply NoDup_filter.
    eapply Permutation_NoDup; [symmetry; exact Hperm | apply NoDup_arange].
  - intros j. rewrite filter_In, is_candidate_In. split.
    + intros [Hj Hc]. split; [exact Hc |].
      apply (Permutation_in _ Hperm), in_arange in Hj. lia.
    + intros [Hc Hj]. split; [| exact Hc].
      apply (Permutation_in _ (Permutation_sym Hperm)), in_arange. rewrite Hext.
      rewrite Forall_forall in Hle. specialize (Hle j Hc). simpl in Hle. lia.
Qed.

(** The score [score] returns is the entry of the vector [rank] sorts. *)
Lemma score_eq_item (u i : Z) (u_row : list Z) :
  known_user ts u -> getrow Um u = Ok u_row -> known_item ts i ->
  BPR.score u i self = (Ok (item (known_scores Vm u_row) i), self).
Proof.
  intros [Hu Hur] Hrow [Hi Hir]. destruct Hfit as (Hts & HU & HV & HUs & HVs).
  destruct (getrow_in_range _ _ _ _ HUs Hur) as [Hurow Hulen].
  destruct (getrow_in_range _ _ _ _ HVs Hir) as [Hvrow Hvlen].
  rewrite Hrow in Hurow. injection Hurow as ->.
  unfold BPR.score, BPR.bind, BPR.deref, BPR.raise, BPR.lift, BPR.ret.
  rewrite Hts, Hu, Hi. simpl. rewrite HV, Hvrow, HU, Hrow.
  unfold dot. rewrite Hulen, Hvlen, Nat.eqb_refl.
  now rewrite item_known_scores.
Qed.

End RankFacts.

Lemma rank_subset_nonempty_witness :
  exists r,
    BPR.rank default_score_small 0 None bpr_small = (Ok r, bpr_small) /\
    BPR.rank default_score_small 0 (Some [0; 2]) bpr_small =
      (Ok (filter (is_candidate [0; 2]) r), bpr_small).
Proof.
  apply (rank_subset_nonempty default_score_small bpr_small ts_small
           U_small V_small 2 0 0 [2]); by_evaluation; simpl; lia.
Defined.

Lemma rank_nonempty_permutation_witness :
  exists r,
    BPR.rank default_score_small 0 (Some [4; 0; 2]) bpr_small = (Ok r, bpr_small) /\
    Permutation r [4; 0; 2].
Proof.
  apply (rank_nonempty_permutation default_score_small bpr_small ts_small
           U_small V_small 2 0 4 [0; 2]); by_evaluation;
    simpl; intuition lia.
Defined.

(** X3: for a known user and any non-empty candidate list, the restricted
    ranking lists each non-negative candidate exactly once: repeated
    candidates are collapsed and negative ones are dropped. *)
Theorem rank_candidates_distinct_nonnegative (default_score : BPR.t -> Z)
    (self : BPR.t) (ts : TrainSet) (Um Vm : ndarray2) (kk : nat) (u : Z)
    (c0 : Z) (cs : list Z) :
  fitted self ts Um Vm kk -> known_user ts u ->
  exists r,
    BPR.rank default_score u (Some (c0 :: cs)) self = (Ok r, self) /\
    NoDup r /\
    (forall j, In j r <-> In j (c0 :: cs) /\ 0 <= j).
Proof.
  intros Hfit Hk.
  destruct (user_row self ts Um Vm kk Hfit u Hk) as (u_row & Hrow & _).
  destruct (pymax_spec c0 cs) as (mx & Hmx & _).
  destruct (rank_candidates_facts default_score self ts Um Vm kk Hfit u u_row
              (c0 :: cs) mx Hk Hrow Hmx) as (ext & r & Hr & _ & _ & _ & Hnd & Hin).
  exists r. auto.
Qed.

Lemma rank_candidates_distinct_nonnegative_witness :
  exists r,
    BPR.rank default_score_small 0 (Some [2; -1; 2; 4]) bpr_small =
      (Ok r, bpr_small) /\
    NoDup r /\
    (forall j, In j r <-> In j [2; -1; 2; 4] /\ 0 <= j).
Proof.
  apply (rank_candidates_distinct_nonnegative default_score_small bpr_small
           ts_small U_small V_small 2 0 2 [-1; 2; 4]); by_evaluation.
Defined.

Example rank_small_repeated_negative :
  BPR.rank default_score_small 0 (Some [2; -1; 2; 4]) bpr_small =
    (Ok [2; 4], bpr_small).
Proof. reflexivity. Qed.

(** X4: for a known user, the restricted ranking depends on the set of
    candidates only: two non-empty candidate lists with the same elements,
    in whatever order and multiplicity, give the same ranking. *)
Theorem rank_candidates_order_irrelevant (default_score : BPR.t -> Z)
    (self : BPR.t) (ts : TrainSet) (Um Vm : ndarray2) (kk : nat) (u : Z)
    (c0 : Z) (cs : list Z) (d0 : Z) (ds : list Z) :
  fitted self ts Um Vm kk -> known_user ts u ->
  (forall j, In j (c0 :: cs) <-> In j (d0 :: ds)) ->
  BPR.rank default_score u (Some (c0 :: cs)) self =
  BPR.rank default_score u (Some (d0 :: ds)) self.
Proof.
  intros Hfit Hk Hsame.
  destruct (user_row self ts Um Vm kk Hfit u Hk) as (u_row & Hrow & _).
  destruct (pymax_spec c0 cs) as (mc & Hmc & Hinc & Hlec).
  destruct (pymax_spec d0 ds) as (md & Hmd & Hind & Hled).
  assert (mc = md) as <-.
  { rewrite Forall_forall in Hlec, Hled.
    pose proof (Hlec md (proj2 (Hsame md) Hind)) as H1.
    pose proof (Hled mc (proj1 (Hsame mc) Hinc)) as H2.
    simpl in H1, H2. lia. }
  rewrite (rank_candidates_eq default_score _ ts Um Vm kk Hfit u u_row c0 cs mc
             Hk Hrow Hmc).
  rewrite (rank_candidates_eq default_score _ ts Um Vm kk Hfit u u_row d0 ds mc
             Hk Hrow Hmd).
  f_equal. f_equal. apply filter_ext. intros j. now apply is_candidate_same.
Qed.

Lemma rank_candidates_order_irrelevant_witness :
  BPR.rank default_score_small 0 (Some [4; 0; 2]) bpr_small =
  BPR.rank default_score_small 0 (Some [2; 2; 0; 4]) bpr_small.
Proof.
  apply (rank_candidates_order_irrelevant default_score_small bpr_small ts_small
           U_small V_small 2 0 4 [0; 2] 2 [2; 0; 4]); by_evaluation;
    simpl; intuition lia.
Defined.





(** ** Further properties of scoring, construction and fitting *)



Example init_without_V :
  BPR.__init__ 5 100 (1 # 1000) (1 # 1000) 100 "bpr" true false
               [("U"%string, Some U_small)] = Err KeyError.
Proof. reflexivity. Qed.

(** X8: a model built as not trainable from initial parameters that hold
    factors of the shapes the training set asks for is fitted once [fit] has
    run: it holds exactly the supplied factors, and [score] on a known user
    and a known item returns the dot product of their rows. *)
Theorem pretrained_model_is_fitted
    (bpr : list (Z * Z * Z) -> list (Z * Z * Z) -> Z -> Z -> Q -> Q -> Z ->
           dict (option ndarray2) -> result (dict ndarray2))
    (k max_iter : Z) (learning_rate lamda : Q) (batch_size : Z) (name : string)
    (verbose : bool) (init_params : dict (option ndarray2)) (self : BPR.t)
    (ts : TrainSet) (Um Vm : ndarray2) (kk : nat) :
  BPR.__init__ k max_iter learning_rate lamda batch_size name false verbose
               init_params = Ok self ->
  dict_get init_params "U" = Ok (Some Um) ->
  dict_get init_params "V" = Ok (Some Vm) ->
  has_shape Um (num_users ts) kk -> has_shape Vm (num_items ts) kk ->
  fst (BPR.fit bpr ts self) = Ok tt /\
  fitted (snd (BPR.fit bpr ts self)) ts Um Vm kk /\
  (forall u i, known_user ts u -> known_item ts i ->
     exists u_row v_row,
       getrow Um u = Ok u_row /\ getrow Vm i = Ok v_row /\
       BPR.score u i (snd (BPR.fit bpr ts self)) =
         (Ok (vdot v_row u_row), snd (BPR.fit bpr ts self))).
Proof.
  intros Hinit HU HV HUs HVs.
  unfold BPR.__init__ in Hinit. rewrite HU, HV in Hinit. injection Hinit as <-.
  set (self := BPR.mk _ _ _ _ _ _ _ _ _ _ _ _).
  assert (Hfit : BPR.fit bpr ts self = (Ok tt, BPR.set_train_set ts self))
    by reflexivity.
  rewrite Hfit. simpl fst. simpl snd.
  assert (Hfitted : fitted (BPR.set_train_set ts self) ts Um Vm kk).
  { unfold fitted. simpl. do 3 (split; [reflexivity |]). split; assumption. }
  split; [reflexivity |]. split; [exact Hfitted |].
  intros u i Hu Hi.
  destruct (getrow_in_range _ _ _ _ HUs (proj2 Hu)) as [Hurow _].
  destruct (getrow_in_range _ _ _ _ HVs (proj2 Hi)) as [Hvrow _].
  eexists. eexists. split; [exact Hurow |]. split; [exact Hvrow |].
  rewrite (score_eq_item _ ts Um Vm kk Hfitted u i _ Hu Hurow Hi).
  now rewrite item_known_scores.
Qed.

Lemma pretrained_model_is_fitted_witness :
  fst (BPR.fit trainer_small ts_small pretrained_small) = Ok tt /\
  fitted (snd (BPR.fit trainer_small ts_small pretrained_small)) ts_small
         U_small V_small 2 /\
  (forall u i, known_user ts_small u -> known_item ts_small i ->
     exists u_row v_row,
       getrow U_small u = Ok u_row /\ getrow V_small i = Ok v_row /\
       BPR.score u i (snd (BPR.fit trainer_small ts_small pretrained_small)) =
         (Ok (vdot v_row u_row), snd (BPR.fit trainer_small ts_small pretrained_small))).
Proof.
  apply (pretrained_model_is_fitted trainer_small 2 100 (1 # 1000) (1 # 1000) 100
           "bpr" false init_params_small pretrained_small ts_small
           U_small V_small 2); by_evaluation.
Defined.

(** X9: on a model that is not trainable and holds no factors, [fit]
    returns without complaint; afterwards [score] raises [TypeError] and
    [rank] raises [AttributeError] for every user and item the training set
    knows, while [rank] for an unknown user still returns. *)
Theorem fit_without_factors_then_predict (default_score : BPR.t -> Z)
    (bpr : list (Z * Z * Z) -> list (Z * Z * Z) -> Z -> Z -> Q -> Q -> Z ->
           dict (option ndarray2) -> result (dict ndarray2))
    (self : BPR.t) (ts : TrainSet) :
  BPR.trainable self = false -> BPR.U self = None -> BPR.V self = None ->
  fst (BPR.fit bpr ts self) = Ok tt /\
  (forall u i, is_unk_user ts u = false -> is_unk_item ts i = false ->
     fst (BPR.score u i (snd (BPR.fit bpr ts self))) = Err TypeError) /\
  (forall u c, is_unk_user ts u = false ->
     fst (BPR.rank default_score u c (snd (BPR.fit bpr ts self))) =
       Err AttributeError) /\
  (forall u c, is_unk_user ts u = true ->
     fst (BPR.rank default_score u (Some c) (snd (BPR.fit bpr ts self))) = Ok c).
Proof.
  intros Htr HU HV.
  assert (Hfit : BPR.fit bpr ts self = (Ok tt, BPR.set_train_set ts self)).
  { unfold BPR.fit, BPR.Recommender_fit, BPR.bind, BPR.modify, BPR.deref,
      BPR.get, BPR.ret. simpl. now rewrite Htr. }
  rewrite Hfit. simpl fst. simpl snd.
  split; [reflexivity |]. split; [| split].
  - intros u i Hu Hi.
    unfold BPR.score, BPR.bind, BPR.deref, BPR.raise. simpl.
    rewrite Hu, Hi. simpl. now rewrite HV.
  - intros u c Hu.
    unfold BPR.rank, BPR.bind, BPR.deref. simpl.
    rewrite Hu. simpl. now rewrite HV.
  - intros u c Hu.
    unfold BPR.rank, BPR.bind, BPR.deref, BPR.ret. simpl. now rewrite Hu.
Qed.

Lemma fit_without_factors_then_predict_witness :
  fst (BPR.fit trainer_small ts_small unfactored_small) = Ok tt /\
  (forall u i, is_unk_user ts_small u = false -> is_unk_item ts_small i = false ->
     fst (BPR.score u i (snd (BPR.fit trainer_small ts_small unfactored_small))) =
       Err TypeError) /\
  (forall u c, is_unk_user ts_small u = false ->
     fst (BPR.rank default_score_small u c
            (snd (BPR.fit trainer_small ts_small unfactored_small))) =
       Err AttributeError) /\
  (forall u c, is_unk_user ts_small u = true ->
     fst (BPR.rank default_score_small u (Some c)
            (snd (BPR.fit trainer_small ts_small unfactored_small))) = Ok c).
Proof.
  apply (fit_without_factors_then_predict default_score_small trainer_small
           unfactored_small ts_small); reflexivity.
Defined.

(** X10: [score] trusts the training set for the upper bound.  When the
    training set knows an item whose index is not below the number of rows
    of [V], [score] raises [IndexError]. *)
Theorem score_item_beyond_factors (self : BPR.t) (ts : TrainSet) (Vm : ndarray2)
    (u i : Z) :
  BPR.train_set self = Some ts -> BPR.V self = Some Vm ->
  is_unk_user ts u = false -> is_unk_item ts i = false ->
  Z.of_nat (length (rows Vm)) <= i ->
  BPR.score u i self = (Err IndexError, self).
Proof.
  intros Hts HV Hu Hi Hrange.
  unfold BPR.score, BPR.bind, BPR.deref, BPR.raise, BPR.lift.
  rewrite Hts, Hu, Hi. cbn [orb]. rewrite HV. unfold getrow.
  replace (i <? Z.of_nat (length (rows Vm))) with false
    by (symmetry; apply Z.ltb_ge; lia).
  replace (i <? 0) with false by (symmetry; apply Z.ltb_ge; lia).
  now rewrite !andb_false_r.
Qed.

Lemma score_item_beyond_factors_witness :
  BPR.score 0 4 bpr_mismatch = (Err IndexError, bpr_mismatch).
Proof.
  apply (score_item_beyond_factors bpr_mismatch ts_large V_small 0 4);
    by_evaluation.
Defined.
